(** * pyvpnc: a shallow embedding of [vpnc/__init__.py]

    The module is glue around external programs: it renders a six-line
    configuration file, moves it into the privileged directory, and runs
    [vpnc] / [vpnc-disconnect].  The embedding keeps that shape:

    - Python exceptions are values of [exn], with the class hierarchy the
      [except] clause of [remove_config_file] is resolved against;
    - the interpreter's surroundings ([sys.platform], [HERE], the table
      [signal.Signals], the operating system that runs a command or opens
      a file) are the fields of a [Host];
    - every method is a function on a [World] (the files and the ordered
      trace of what the program did to its surroundings) in a state and
      exception monad [M]. *)

From Stdlib Require Import ZArith String Ascii List DecimalString.
From stdpp Require Import base gmap strings list.

Open Scope Z_scope.
Open Scope string_scope.
Open Scope list_scope.

(** ** Exceptions *)

(** The exception classes that occur in the module or in the library
    functions it calls, with their direct base class (Python 3). *)
Inductive pyclass :=
| cls_BaseException
| cls_Exception
| cls_LookupError
| cls_KeyError
| cls_TypeError
| cls_ValueError
| cls_RuntimeError
| cls_OSError
| cls_SubprocessError
| cls_CalledProcessError
| cls_ProcessException.

Global Instance pyclass_eq_dec : EqDecision pyclass.
Proof. solve_decision. Defined.

Definition base_class (c : pyclass) : option pyclass :=
  match c with
  | cls_BaseException => None
  | cls_Exception => Some cls_BaseException
  | cls_LookupError => Some cls_Exception
  | cls_KeyError => Some cls_LookupError
  | cls_TypeError => Some cls_Exception
  | cls_ValueError => Some cls_Exception
  | cls_RuntimeError => Some cls_Exception
  | cls_OSError => Some cls_Exception
  | cls_SubprocessError => Some cls_Exception
  | cls_CalledProcessError => Some cls_SubprocessError
  (* class ProcessException(Exception) *)
  | cls_ProcessException => Some cls_Exception
  end.

(** [issubclass c d], by walking up the bases; the hierarchy above is at
    most four classes deep. *)
Fixpoint issubclass_fuel (fuel : nat) (c d : pyclass) : bool :=
  if bool_decide (c = d) then true
  else match fuel, base_class c with
       | S n, Some b => issubclass_fuel n b d
       | _, _ => false
       end.

Definition issubclass : pyclass → pyclass → bool := issubclass_fuel 4.

(** An instance of [ProcessException]: the four attributes set by
    [__init__]. *)
Record ProcessException := mkProcessException {
  returncode : Z;
  cmd : list string;
  stdout : string;
  stderr : string
}.

Global Instance ProcessException_eq_dec : EqDecision ProcessException.
Proof. solve_decision. Defined.

Inductive exn :=
| ExProcess (e : ProcessException)
| CalledProcessError (rc : Z) (args : list string)
| KeyError (key : string)
| TypeError (msg : string)
| ValueError (msg : string)
| RuntimeError (msg : string)
| OSError (msg : string).

Global Instance exn_eq_dec : EqDecision exn.
Proof. solve_decision. Defined.

Definition type_of (e : exn) : pyclass :=
  match e with
  | ExProcess _ => cls_ProcessException
  | CalledProcessError _ _ => cls_CalledProcessError
  | KeyError _ => cls_KeyError
  | TypeError _ => cls_TypeError
  | ValueError _ => cls_ValueError
  | RuntimeError _ => cls_RuntimeError
  | OSError _ => cls_OSError
  end.

Definition isinstance (e : exn) (c : pyclass) : bool :=
  issubclass (type_of e) c.

(** ** The world outside the interpreter *)

(** How an attempt to run a command ended: the child ran to completion
    ([communicate] returned) with a return code and its captured streams,
    or [Popen] could not start it. *)
Inductive outcome :=
| Exited (rc : Z) (out err : string)
| NotStarted (msg : string).

Inductive event :=
| Opened (path : string)
| Wrote (path data : string)
| Spawned (argv : list string) (o : outcome).

Record World := mkWorld {
  files : gmap string string;
  trace : list event
}.

(** What the module reads from its surroundings.  [popen argv w] is what
    the operating system does when [argv] is run in world [w]: how the
    child ends and the files it leaves behind.  [may_open path w] tells
    whether [open(path, "w+")] succeeds. *)
Record Host := mkHost {
  sys_platform : string;
  HERE : string;
  Signals : Z → option string;
  popen : list string → World → outcome * gmap string string;
  may_open : string → World → bool
}.

(** ** State and exception monad *)

Inductive result (A : Type) :=
| Ok (a : A)
| Raise (e : exn).
Arguments Ok {A} a.
Arguments Raise {A} e.

Definition M (A : Type) : Type := World → result A * World.

Definition ret {A} (a : A) : M A := fun w => (Ok a, w).
Definition raise {A} (e : exn) : M A := fun w => (Raise e, w).
Definition bind {A B} (m : M A) (k : A → M B) : M B :=
  fun w => match m w with
           | (Ok a, w') => k a w'
           | (Raise e, w') => (Raise e, w')
           end.
Definition lift {A} (r : result A) : M A := fun w => (r, w).

Notation "'let*' x ':=' m 'in' k" := (bind m (fun x => k))
  (at level 10, x pattern, m at level 100, k at level 200).
Notation "m ';;' k" := (bind m (fun _ => k))
  (at level 100, k at level 200, right associativity).

(** [try: body  except cls: handler]. *)
Definition try_except {A} (body : M A) (cls : pyclass) (handler : M A) : M A :=
  fun w => match body w with
           | (Ok a, w') => (Ok a, w')
           | (Raise e, w') =>
               if isinstance e cls then handler w' else (Raise e, w')
           end.

(** ** Library functions the module calls *)

Definition LF : ascii := "010"%char.
Definition NL : string := String LF "".

(** [posixpath.join(a, b)] for one component [b]: this is [os.path.join]
    where [sys.platform] starts with [linux] or [darwin], the platforms
    the constructor knows.  [os.fspath(a)] is the first thing [join]
    does, and it raises [TypeError] for [None]; elsewhere ([ntpath]) only
    this is relied on, and that joining two strings does not raise. *)
Definition ends_with_sep (s : string) : bool :=
  match rev (list_ascii_of_string s) with
  | c :: _ => bool_decide (c = "/"%char)
  | [] => false
  end.

Definition os_path_join (a : option string) (b : string) : result string :=
  match a with
  | None =>
      Raise (TypeError
               "expected str, bytes or os.PathLike object, not NoneType")
  | Some path =>
      if String.prefix "/" b then Ok b
      else if bool_decide (path = "") || ends_with_sep path
           then Ok (path +:+ b)
           else Ok (path +:+ "/" +:+ b)
  end.

(** [fmt % mapping] for the conversions the module's template uses: a
    literal character, [%%], and [%(key)s] with a [str] value.  The
    string is scanned left to right; the key is looked up as soon as its
    closing parenthesis is read, so the first missing key raises
    [KeyError] and nothing to its right is looked at. *)
Inductive fmt_mode :=
| InText
| AfterPercent
| InKey (acc : string) (depth : nat)
| AfterKey (value : string).

Fixpoint percent_format (mode : fmt_mode) (fmt : string)
    (mapping : string → option string) : result string :=
  match fmt with
  | EmptyString =>
      match mode with
      | InText => Ok ""
      | InKey _ _ => Raise (ValueError "incomplete format key")
      | _ => Raise (ValueError "incomplete format")
      end
  | String c rest =>
      match mode with
      | InText =>
          if bool_decide (c = "%"%char)
          then percent_format AfterPercent rest mapping
          else match percent_format InText rest mapping with
               | Ok s => Ok (String c s)
               | Raise e => Raise e
               end
      | AfterPercent =>
          if bool_decide (c = "("%char)
          then percent_format (InKey "" 0) rest mapping
          else if bool_decide (c = "%"%char)
          then match percent_format InText rest mapping with
               | Ok s => Ok (String c s)
               | Raise e => Raise e
               end
          else Raise (ValueError "unsupported format character")
      | InKey acc depth =>
          if bool_decide (c = ")"%char)
          then match depth with
               | O =>
                   match mapping acc with
                   | None => Raise (KeyError acc)
                   | Some v => percent_format (AfterKey v) rest mapping
                   end
               | S d =>
                   percent_format (InKey (acc +:+ String c "") d) rest mapping
               end
          else if bool_decide (c = "("%char)
          then percent_format (InKey (acc +:+ String c "") (S depth)) rest mapping
          else percent_format (InKey (acc +:+ String c "") depth) rest mapping
      | AfterKey v =>
          if bool_decide (c = "s"%char)
          then match percent_format InText rest mapping with
               | Ok s => Ok (v +:+ s)
               | Raise e => Raise e
               end
          else Raise (ValueError "unsupported format character")
      end
  end.

(** [repr] of a [str] of ASCII characters: in single quotes, unless the
    string has a single quote and no double quote (character 34); the
    quote character and the backslash are escaped, tab, line feed and
    carriage return are written as escapes, the other control characters
    as [\xNN]. *)
Definition hex_digit (n : N) : ascii :=
  match String.get (N.to_nat n) "0123456789abcdef" with
  | Some c => c
  | None => "0"%char
  end.

Definition has_char (c : ascii) (s : string) : bool :=
  existsb (fun d => bool_decide (d = c)) (list_ascii_of_string s).

Definition repr_char (quote c : ascii) : string :=
  let n := N_of_ascii c in
  if bool_decide (c = quote) || bool_decide (c = "\"%char)
  then String "\" (String c "")
  else if bool_decide (n = 9%N) then "\t"
  else if bool_decide (n = 10%N) then "\n"
  else if bool_decide (n = 13%N) then "\r"
  else if (n <? 32)%N || bool_decide (n = 127%N)
  then "\x" +:+ String (hex_digit (n / 16)) (String (hex_digit (n mod 16)) "")
  else String c "".

Definition repr_str (s : string) : string :=
  let quote := if has_char "'"%char s && negb (has_char "034"%char s)
               then "034"%char else "'"%char in
  String quote
    (String.concat "" (map (repr_char quote) (list_ascii_of_string s)))
  +:+ String quote "".

(** [str] of a list of strings, as [%s] renders [self.cmd]. *)
Definition str_list (l : list string) : string :=
  "[" +:+ String.concat ", " (map repr_str l) +:+ "]".

(** [%d] of an integer. *)
Definition fmt_d (z : Z) : string := NilZero.string_of_int (Z.to_int z).

(** [%r] of a member of the enumeration [signal.Signals]. *)
Definition repr_signal (name : string) (number : Z) : string :=
  "<Signals." +:+ name +:+ ": " +:+ fmt_d number +:+ ">".

(** ** Generators and [contextlib.contextmanager] *)

(** The body of a generator function without [try] blocks: a sequence of
    statements and [yield]s.  A generator object is what is left to run. *)
Inductive gstmt :=
| GDo (c : M unit)
| GYield.

Definition generator := list gstmt.

(** [next(gen)]: run up to the next [yield]; [None] stands for
    [StopIteration]. *)
Fixpoint gen_next (g : generator) : M (option generator) :=
  match g with
  | [] => ret None
  | GYield :: rest => ret (Some rest)
  | GDo c :: rest => c ;; gen_next rest
  end.

(** [gen.throw(value)]: the exception is raised at the [yield] where the
    generator is suspended; no statement of the body can handle it. *)
Definition gen_throw (g : generator) (value : exn) : M (option generator) :=
  raise value.

(** [_GeneratorContextManager.__enter__]. *)
Definition cm_enter (g : generator) : M generator :=
  let* r := gen_next g in
  match r with
  | Some g' => ret g'
  | None => raise (RuntimeError "generator didn't yield")
  end.

(** [_GeneratorContextManager.__exit__]: the result tells whether the
    exception is suppressed. *)
Definition cm_exit (g : generator) (value : option exn) : M bool :=
  match value with
  | None =>
      let* r := gen_next g in
      match r with
      | None => ret false
      | Some _ => raise (RuntimeError "generator didn't stop")
      end
  | Some v =>
      fun w =>
        match gen_throw g v w with
        | (Ok None, w') => (Ok true, w')
        | (Ok (Some _), w') =>
            (Raise (RuntimeError "generator didn't stop after throw()"), w')
        | (Raise e, w') =>
            if bool_decide (e = v) then (Ok false, w') else (Raise e, w')
        end
  end.

(** [with manager: block], for a manager made by [contextmanager] from
    the generator [g]. *)
Definition with_stmt (g : generator) (block : M unit) : M unit :=
  let* g' := cm_enter g in
  fun w =>
    match block w with
    | (Ok _, w') => (cm_exit g' None ;; ret tt) w'
    | (Raise e, w') =>
        match cm_exit g' (Some e) w' with
        | (Ok true, w'') => (Ok tt, w'')
        | (Ok false, w'') => (Raise e, w'')
        | (Raise e', w'') => (Raise e', w'')
        end
    end.

(** ** The module *)

Section Vpnc.
Context (host : Host).

(** [process_call(cmd)]: run the command, wait for it, raise
    [ProcessException] when the return code is truthy (non-zero),
    otherwise return the triple.  [process.args] is the argument list
    [Popen] was given. *)
Definition process_call (argv : list string) : M (Z * string * string) :=
  fun w =>
    let '(o, fs) := popen host argv w in
    let w' := {| files := fs; trace := trace w ++ [Spawned argv o] |} in
    match o with
    | NotStarted msg => (Raise (OSError msg), w')
    | Exited rc out err =>
        if bool_decide (rc ≠ 0)
        then (Raise (ExProcess (mkProcessException rc argv out err)), w')
        else (Ok (rc, out, err), w')
    end.

(** [open(path, "w+")]: creates or truncates the file. *)
Definition open_w (path : string) : M unit :=
  fun w =>
    if may_open host path w
    then (Ok tt, {| files := <[path := ""]> (files w);
                    trace := trace w ++ [Opened path] |})
    else (Raise (OSError path), w).

(** [print(s, file=f)]: [s] and the line terminator are appended. *)
Definition print_to (path : string) (s : string) : M unit :=
  fun w =>
    let data := s +:+ NL in
    (Ok tt, {| files := <[path := default "" (files w !! path) +:+ data]>
                          (files w);
               trace := trace w ++ [Wrote path data] |}).

(** [ProcessException.__str__]. *)
Definition ProcessException_str (self : ProcessException) : string :=
  if bool_decide (returncode self ≠ 0) && (returncode self <? 0)%Z
  then match Signals host (- returncode self) with
       | Some name =>
           "Command '" +:+ str_list (cmd self) +:+ "' died with " +:+
           repr_signal name (- returncode self) +:+ "."
       | None =>
           "Command '" +:+ str_list (cmd self) +:+
           "' died with unknown signal " +:+ fmt_d (- returncode self) +:+ "."
       end
  else "Command '" +:+ str_list (cmd self) +:+
       "' returned non-zero exit status " +:+ fmt_d (returncode self) +:+ ".".

(** ** class VPNC *)

Record VPNC := mkVPNC {
  config : gmap string string;
  config_file : string;
  temp_config_path : string;
  config_folder : string;
  config_path : string
}.

Definition default_config_file : string := "tempvpnc.conf".

(** [VPNC.__init__(self, config, config_file, config_folder)].
    [config or dict()] replaces [None] and the empty mapping alike.  The
    last statement joins the folder, [None] included, with the file name;
    as that raises for [None], [config_folder] is a string on every
    object the constructor returns. *)
Definition VPNC_init (config_arg : option (gmap string string))
    (config_file_arg : string) (config_folder_arg : option string)
    : result VPNC :=
  let cfg := match config_arg with
             | Some m => if bool_decide (m = ∅) then ∅ else m
             | None => ∅
             end in
  match os_path_join (Some (HERE host)) config_file_arg with
  | Raise e => Raise e
  | Ok temp =>
      let folder :=
        match config_folder_arg with
        | None =>
            if String.prefix "linux" (sys_platform host)
            then Some "/etc/vpnc"
            else if String.prefix "darwin" (sys_platform host)
            then Some "/usr/local/etc/vpnc"
            else None
        | Some d => Some d
        end in
      match os_path_join folder config_file_arg, folder with
      | Ok path, Some dir =>
          Ok {| config := cfg; config_file := config_file_arg;
                temp_config_path := temp; config_folder := dir;
                config_path := path |}
      | Raise e, _ => Raise e
      | Ok _, None =>
          (* never taken: joining [None] raises *)
          Raise (TypeError
                   "expected str, bytes or os.PathLike object, not NoneType")
      end
  end.

Definition CONFIG_TEMPLATE : string :=
  "IPSec gateway %(IPSec_gateway)s" +:+ NL +:+
  "IPSec ID %(IPSec_ID)s" +:+ NL +:+
  "IPSec secret %(IPSec_secret)s" +:+ NL +:+
  "IKE Authmode %(IKE_Authmode)s" +:+ NL +:+
  "Xauth username %(Xauth_username)s" +:+ NL +:+
  "Xauth password %(Xauth_password)s".

(** [create_config_file]: the [with] block opens the file, then the
    argument of [print] is evaluated, then printed; the file is closed on
    the way out whether or not formatting raised. *)
Definition create_config_file (self : VPNC) : M unit :=
  open_w (temp_config_path self) ;;
  let* text := lift (percent_format InText CONFIG_TEMPLATE
                       (fun k => config self !! k)) in
  print_to (temp_config_path self) text.

Definition move_config_file (self : VPNC) : M unit :=
  process_call ["mv"; temp_config_path self; config_folder self] ;;
  process_call ["chown"; "root:root"; config_path self] ;;
  process_call ["chmod"; "600"; config_path self] ;;
  ret tt.

Definition remove_config_file (self : VPNC) : M bool :=
  try_except
    (process_call ["rm"; config_path self] ;; ret true)
    cls_CalledProcessError
    (ret false).

Definition connect (self : VPNC) : M unit :=
  create_config_file self ;;
  move_config_file self ;;
  process_call ["vpnc"; "tempvpnc"] ;;
  ret tt.

Definition disconnect (self : VPNC) : M unit :=
  process_call ["vpnc-disconnect"] ;;
  remove_config_file self ;;
  ret tt.

(** [vpn]: the generator function under [@contextmanager]. *)
Definition vpn (self : VPNC) : generator :=
  [GDo (connect self); GYield; GDo (disconnect self)].

End Vpnc.

(** ** Specification vocabulary *)

(** A text file read line by line: each line feed ends a line, and a last
    line without one still counts. *)
Fixpoint lines (s : string) : list string :=
  match s with
  | EmptyString => []
  | String c rest =>
      if bool_decide (c = LF) then EmptyString :: lines rest
      else match lines rest with
           | [] => [String c EmptyString]
           | l :: ls => String c l :: ls
           end
  end.

(** The keys of the template, in the order the template names them. *)
Definition required_keys : list string :=
  ["IPSec_gateway"; "IPSec_ID"; "IPSec_secret"; "IKE_Authmode";
   "Xauth_username"; "Xauth_password"].

Definition first_missing (cfg : gmap string string) : option string :=
  find (fun k => bool_decide (cfg !! k = None)) required_keys.

(** The text the template renders to for six given values. *)
Definition rendered (g i s a u p : string) : string :=
  "IPSec gateway " +:+ g +:+ NL +:+
  "IPSec ID " +:+ i +:+ NL +:+
  "IPSec secret " +:+ s +:+ NL +:+
  "IKE Authmode " +:+ a +:+ NL +:+
  "Xauth username " +:+ u +:+ NL +:+
  "Xauth password " +:+ p.

Definition no_line_feed (s : string) : Prop := has_char LF s = false.

Definition exited_zero (o : outcome) : Prop :=
  ∃ out err, o = Exited 0 out err.

(** The exception [process_call] raises for a command that ended as [o],
    if it raises one. *)
Definition failure_of (argv : list string) (o : outcome) : option exn :=
  match o with
  | Exited rc out err =>
      if bool_decide (rc ≠ 0)
      then Some (ExProcess (mkProcessException rc argv out err))
      else None
  | NotStarted msg => Some (OSError msg)
  end.

(** The number of line feeds in a string. *)
Fixpoint count_lf (s : string) : nat :=
  match s with
  | EmptyString => 0%nat
  | String c rest =>
      ((if bool_decide (c = LF) then 1 else 0) + count_lf rest)%nat
  end.

(** A config that has the six fields, none of them holding a line feed. *)
Definition complete_lf_free (cfg : gmap string string) : Prop :=
  ∀ k, k ∈ required_keys → ∃ v, cfg !! k = Some v ∧ no_line_feed v.

(** The world once the host has run [argv] in [w]: the files are those
    the command leaves, and the spawn is recorded with the way the
    command ended. *)
Definition after (host : Host) (argv : list string) (w : World) : World :=
  {| files := (popen host argv w).2;
     trace := trace w ++ [Spawned argv (popen host argv w).1] |}.

(** The commands [connect] runs after rendering, in order. *)
Definition connect_commands (self : VPNC) : list (list string) :=
  [["mv"; temp_config_path self; config_folder self];
   ["chown"; "root:root"; config_path self];
   ["chmod"; "600"; config_path self];
   ["vpnc"; "tempvpnc"]].

(** Running commands one after the other, up to the first that raises. *)
Fixpoint run_each (host : Host) (cmds : list (list string)) : M unit :=
  match cmds with
  | [] => ret tt
  | argv :: rest => process_call host argv ;; run_each host rest
  end.

(** ** Concrete hosts and objects used in the examples *)

Module Sample.

(** A fragment of the signal table of Linux. *)
Definition signals (n : Z) : option string :=
  if bool_decide (n = 2) then Some "SIGINT"
  else if bool_decide (n = 9) then Some "SIGKILL"
  else if bool_decide (n = 15) then Some "SIGTERM"
  else None.

(** A host on which the command [failing] exits with [rc] and every
    other command exits with 0; no command touches the files. *)
Definition host_failing (platform : string) (failing : string) (rc : Z)
    : Host :=
  {| sys_platform := platform;
     HERE := "/opt/pyvpnc/vpnc";
     Signals := signals;
     popen := fun argv w =>
       (Exited (if bool_decide (head argv = Some failing) then rc else 0)
               "" "", files w);
     may_open := fun _ _ => true |}.

Definition linux : Host := host_failing "linux" "" 0.

Definition full_config : gmap string string :=
  list_to_map
    [("IPSec_ID", "my IPSec ID"); ("IPSec_gateway", "my.gateway.com");
     ("IPSec_secret", "my IPSec secret");
     ("Xauth_username", "my Xauth username");
     ("Xauth_password", "my Xauth password"); ("IKE_Authmode", "psk")].

Definition client (cfg : gmap string string) : VPNC :=
  {| config := cfg;
     config_file := "tempvpnc.conf";
     temp_config_path := "/opt/pyvpnc/vpnc/tempvpnc.conf";
     config_folder := "/etc/vpnc";
     config_path := "/etc/vpnc/tempvpnc.conf" |}.

Definition start : World := {| files := ∅; trace := [] |}.

Definition darwin : Host := host_failing "darwin" "" 0.
Definition win32 : Host := host_failing "win32" "" 0.
Definition rm_fails : Host := host_failing "linux" "rm" 1.
Definition chown_fails : Host := host_failing "linux" "chown" 1.
Definition vpnc_fails : Host := host_failing "linux" "vpnc" 2.
Definition disconnect_fails : Host :=
  host_failing "linux" "vpnc-disconnect" 1.

Definition self : VPNC := client full_config.

(** The config with a secret of two lines, and the config without
    [IPSec_ID]. *)
Definition two_line_secret : gmap string string :=
  <["IPSec_secret" := "first" +:+ NL +:+ "second"]> full_config.
Definition no_id : gmap string string := delete "IPSec_ID" full_config.

(** A world in which the config file is in place. *)
Definition connected : World :=
  {| files := {[ "/etc/vpnc/tempvpnc.conf" := "IPSec gateway ..." ]};
     trace := [] |}.

(** A host on which no file can be opened for writing. *)
Definition read_only : Host :=
  {| sys_platform := "linux";
     HERE := "/opt/pyvpnc/vpnc";
     Signals := signals;
     popen := fun argv w => (Exited 0 "" "", files w);
     may_open := fun _ _ => false |}.

(** A config with a stray key besides the six, and values that hold a
    percent sign and line feeds. *)
Definition odd_config : gmap string string :=
  list_to_map
    [("IPSec_ID", "100%(x)s"); ("IPSec_gateway", "gw" +:+ NL +:+ NL);
     ("IPSec_secret", NL); ("Xauth_username", "u");
     ("Xauth_password", "p"); ("IKE_Authmode", "psk");
     ("Comment", "not rendered")].

(** The config of the docstring with one more key. *)
Definition commented_config : gmap string string :=
  <["Comment" := "not rendered"]> full_config.

(** A world whose temp file already holds something, next to another
    file. *)
Definition stale : World :=
  {| files := {[ "/opt/pyvpnc/vpnc/tempvpnc.conf" := "old content";
                 "/opt/pyvpnc/vpnc/notes.txt" := "keep" ]};
     trace := [] |}.

(** What an event is about: the command of a spawn. *)
Definition what (ev : event) : list string :=
  match ev with
  | Opened _ => ["open"]
  | Wrote _ _ => ["write"]
  | Spawned argv _ => argv
  end.

End Sample.

(** * Properties *)

Section Properties.
Context (host : Host).

(** ** Running one command *)

Lemma process_call_exited argv w rc out err fs :
  popen host argv w = (Exited rc out err, fs) →
  process_call host argv w =
    (if bool_decide (rc ≠ 0)
     then Raise (ExProcess (mkProcessException rc argv out err))
     else Ok (rc, out, err),
     {| files := fs; trace := trace w ++ [Spawned argv (Exited rc out err)] |}).
Proof.
  intros Hrun. unfold process_call. rewrite Hrun.
  by destruct (bool_decide (rc ≠ 0)).
Qed.

Lemma process_call_world argv w :
  (process_call host argv w).2 =
    {| files := (popen host argv w).2;
       trace := trace w ++ [Spawned argv (popen host argv w).1] |}.
Proof.
  unfold process_call. destruct (popen host argv w) as [[rc out err|msg] fs];
    simpl; [by destruct (bool_decide (rc ≠ 0))|done].
Qed.

(** [process_call] never raises the class the [except] clause of
    [remove_config_file] names. *)
Lemma process_call_not_CalledProcessError argv w e w' :
  process_call host argv w = (Raise e, w') →
  isinstance e cls_CalledProcessError = false.
Proof.
  unfold process_call.
  destruct (popen host argv w) as [[rc out err|msg] fs].
  - destruct (bool_decide (rc ≠ 0)); intros [= <- <-]; reflexivity.
  - intros [= <- <-]; reflexivity.
Qed.

(** C5: for a command that ran to completion, [process_call] raises if
    and only if the return code is non-zero; what it raises is a
    [ProcessException] whose [returncode] is that code, whose [cmd] is
    the argument list it was called with and whose streams are the
    captured ones; for return code zero it returns the code with the
    captured stdout and stderr. *)
Theorem process_call_raises_iff_nonzero argv w rc out err fs :
  popen host argv w = (Exited rc out err, fs) →
  ((∃ e, (process_call host argv w).1 = Raise e) ↔ rc ≠ 0) ∧
  (rc ≠ 0 →
     ∃ pe, (process_call host argv w).1 = Raise (ExProcess pe) ∧
           returncode pe = rc ∧ cmd pe = argv ∧
           stdout pe = out ∧ stderr pe = err) ∧
  (rc = 0 → (process_call host argv w).1 = Ok (0, out, err)).
Proof.
  intros Hrun. rewrite (process_call_exited _ _ _ _ _ _ Hrun). simpl.
  case_bool_decide as Hrc.
  - split; [split; [done | eauto] |].
    split; [| intros ->; done].
    intros _. eexists. repeat split.
  - assert (rc = 0) as -> by lia.
    split; [split; [intros [e He]; discriminate | done] |].
    split; done.
Qed.

(** ** Strings and lines *)

Lemma append_cons c (a b : string) : String c a +:+ b = String c (a +:+ b).
Proof. reflexivity. Qed.

Lemma append_empty_l (b : string) : "" +:+ b = b.
Proof. reflexivity. Qed.

Lemma append_empty_r (s : string) : s +:+ "" = s.
Proof.
  induction s as [|c s IH]; [done |]. by rewrite append_cons, IH.
Qed.

Lemma append_assoc (a b c : string) : (a +:+ b) +:+ c = a +:+ (b +:+ c).
Proof.
  induction a as [|x a IH]; [done |]. by rewrite !append_cons, IH.
Qed.

Lemma has_char_append c (a b : string) :
  has_char c (a +:+ b) = has_char c a || has_char c b.
Proof.
  unfold has_char. induction a as [|x a IH]; [done |].
  rewrite append_cons. simpl. by rewrite IH, orb_assoc.
Qed.

Lemma lines_cons (a rest : string) :
  no_line_feed a → lines (a +:+ String LF rest) = a :: lines rest.
Proof.
  unfold no_line_feed, has_char.
  induction a as [|c a IH]; intros Hno.
  - reflexivity.
  - simpl in Hno. apply orb_false_iff in Hno as [Hc Ha].
    rewrite append_cons. simpl. rewrite Hc, (IH Ha). done.
Qed.

Lemma lines_key_value (key value rest : string) :
  no_line_feed key → no_line_feed value →
  lines (key +:+ value +:+ NL +:+ rest) = (key +:+ value) :: lines rest.
Proof.
  intros Hk Hv. rewrite <- append_assoc.
  change (NL +:+ rest) with (String LF rest).
  apply lines_cons. unfold no_line_feed in *.
  by rewrite has_char_append, Hk, Hv.
Qed.

(** ** Rendering *)

Lemma format_template_raw mapping :
  percent_format InText CONFIG_TEMPLATE mapping =
    match mapping "IPSec_gateway" with
    | None => Raise (KeyError "IPSec_gateway")
    | Some g =>
    match mapping "IPSec_ID" with
    | None => Raise (KeyError "IPSec_ID")
    | Some i =>
    match mapping "IPSec_secret" with
    | None => Raise (KeyError "IPSec_secret")
    | Some s =>
    match mapping "IKE_Authmode" with
    | None => Raise (KeyError "IKE_Authmode")
    | Some a =>
    match mapping "Xauth_username" with
    | None => Raise (KeyError "Xauth_username")
    | Some u =>
    match mapping "Xauth_password" with
    | None => Raise (KeyError "Xauth_password")
    | Some p => Ok (rendered g i s a u (p +:+ ""))
    end end end end end end.
Proof.
  repeat (vm_compute;
          match goal with
          | |- context [mapping ?k] => destruct (mapping k)
          end).
  all: reflexivity.
Qed.

Lemma format_template_complete mapping g i s a u p :
  mapping "IPSec_gateway" = Some g → mapping "IPSec_ID" = Some i →
  mapping "IPSec_secret" = Some s → mapping "IKE_Authmode" = Some a →
  mapping "Xauth_username" = Some u → mapping "Xauth_password" = Some p →
  percent_format InText CONFIG_TEMPLATE mapping = Ok (rendered g i s a u p).
Proof.
  intros Hg Hi Hs Ha Hu Hp.
  rewrite format_template_raw, Hg, Hi, Hs, Ha, Hu, Hp.
  by rewrite append_empty_r.
Qed.

Lemma format_template_missing mapping :
  (∃ k, k ∈ required_keys ∧ mapping k = None) →
  ∃ k, find (fun k => bool_decide (mapping k = None)) required_keys = Some k ∧
       percent_format InText CONFIG_TEMPLATE mapping = Raise (KeyError k).
Proof.
  intros (k & Hin & Hk). rewrite format_template_raw.
  unfold required_keys in *. simpl find.
  destruct (mapping "IPSec_gateway") as [g|] eqn:Eg; [|by eexists].
  destruct (mapping "IPSec_ID") as [i|] eqn:Ei; [|by eexists].
  destruct (mapping "IPSec_secret") as [s|] eqn:Es; [|by eexists].
  destruct (mapping "IKE_Authmode") as [a|] eqn:Ea; [|by eexists].
  destruct (mapping "Xauth_username") as [u|] eqn:Eu; [|by eexists].
  destruct (mapping "Xauth_password") as [p|] eqn:Ep; [|by eexists].
  exfalso. repeat (apply elem_of_cons in Hin as [-> | Hin]; [congruence |]).
  by apply elem_of_nil in Hin.
Qed.

(** What [create_config_file] does, by cases. *)
Lemma create_config_file_eq self w :
  create_config_file host self w =
    if may_open host (temp_config_path self) w
    then match percent_format InText CONFIG_TEMPLATE
                 (fun k => config self !! k) with
         | Ok text =>
             (Ok tt,
              {| files := <[temp_config_path self := text +:+ NL]> (files w);
                 trace := trace w ++
                          [Opened (temp_config_path self);
                           Wrote (temp_config_path self) (text +:+ NL)] |})
         | Raise e =>
             (Raise e,
              {| files := <[temp_config_path self := ""]> (files w);
                 trace := trace w ++ [Opened (temp_config_path self)] |})
         end
    else (Raise (OSError (temp_config_path self)), w).
Proof.
  unfold create_config_file, bind, open_w, lift, print_to.
  destruct (may_open host (temp_config_path self) w); [|done].
  destruct (percent_format _ _ _) as [text|e]; [|done].
  simpl. rewrite lookup_insert_eq, insert_insert_eq. simpl.
  by rewrite <- app_assoc.
Qed.

(** C6, amended: for a config that has the six fields, none of them
    holding a line feed, and a temp path that can be opened,
    [create_config_file] completes and the file at the temp path has
    exactly six lines, in the order gateway, ID, secret, Authmode,
    username, password, each the fixed key text followed by the value of
    the field as it is. *)
Theorem create_config_file_six_lines self w g i s a u p :
  config self !! "IPSec_gateway" = Some g →
  config self !! "IPSec_ID" = Some i →
  config self !! "IPSec_secret" = Some s →
  config self !! "IKE_Authmode" = Some a →
  config self !! "Xauth_username" = Some u →
  config self !! "Xauth_password" = Some p →
  may_open host (temp_config_path self) w = true →
  no_line_feed g → no_line_feed i → no_line_feed s →
  no_line_feed a → no_line_feed u → no_line_feed p →
  ∃ content,
    (create_config_file host self w).1 = Ok tt ∧
    files (create_config_file host self w).2 !! temp_config_path self
      = Some content ∧
    lines content =
      ["IPSec gateway " +:+ g; "IPSec ID " +:+ i; "IPSec secret " +:+ s;
       "IKE Authmode " +:+ a; "Xauth username " +:+ u;
       "Xauth password " +:+ p].
Proof.
  intros Hg Hi Hs Ha Hu Hp Hopen Ng Ni Ns Na Nu Np.
  rewrite create_config_file_eq, Hopen.
  rewrite (format_template_complete (fun k => config self !! k)
             g i s a u p Hg Hi Hs Ha Hu Hp).
  eexists. split; [reflexivity |]. split; [apply lookup_insert_eq |].
  unfold rendered. rewrite !append_assoc.
  rewrite !lines_key_value by (assumption || reflexivity).
  rewrite <- append_assoc. change NL with (String LF "").
  rewrite lines_cons; [done |].
  unfold no_line_feed in *. by rewrite has_char_append, Np.
Qed.

(** C2, amended: for a config that lacks at least one of the six keys,
    and a temp path that can be opened, [create_config_file] does not
    complete: having created or truncated the file it raises [KeyError]
    for the first key, in the order of the template, that is absent, and
    the file is left empty. *)
Theorem create_config_file_missing_key self w :
  may_open host (temp_config_path self) w = true →
  (∃ k, k ∈ required_keys ∧ config self !! k = None) →
  ∃ k, first_missing (config self) = Some k ∧
       create_config_file host self w =
         (Raise (KeyError k),
          {| files := <[temp_config_path self := ""]> (files w);
             trace := trace w ++ [Opened (temp_config_path self)] |}).
Proof.
  intros Hopen Hmiss.
  destruct (format_template_missing (fun k => config self !! k) Hmiss)
    as (k & Hfirst & Hfmt).
  exists k. split; [exact Hfirst |].
  by rewrite create_config_file_eq, Hopen, Hfmt.
Qed.

(** ** Connecting *)

Lemma process_call_inv_Ok argv w v w1 :
  process_call host argv w = (Ok v, w1) →
  exited_zero (popen host argv w).1 ∧
  w1 = {| files := (popen host argv w).2;
          trace := trace w ++ [Spawned argv (popen host argv w).1] |}.
Proof.
  unfold process_call, exited_zero.
  destruct (popen host argv w) as [[rc out err|msg] fs]; simpl; [|done].
  case_bool_decide as Hrc; [done |].
  intros [= <- <-]. assert (rc = 0) as -> by lia. eauto.
Qed.

Lemma process_call_inv_Raise argv w e w1 :
  process_call host argv w = (Raise e, w1) →
  failure_of argv (popen host argv w).1 = Some e ∧
  w1 = {| files := (popen host argv w).2;
          trace := trace w ++ [Spawned argv (popen host argv w).1] |}.
Proof.
  unfold process_call, failure_of.
  destruct (popen host argv w) as [[rc out err|msg] fs]; simpl.
  - case_bool_decide; [|done]. by intros [= <- <-].
  - by intros [= <- <-].
Qed.

(** The commands are run in the order of the list; every one before the
    last that is run exited with zero; the run is a success when all of
    them did, and otherwise ends with the exception of the one that did
    not, the rest of the list not being run. *)
Lemma run_each_spec cmds w :
  ∃ outs,
    trace (run_each host cmds w).2 = trace w ++ zip_with Spawned cmds outs ∧
    match (run_each host cmds w).1 with
    | Ok _ => length outs = length cmds ∧ Forall exited_zero outs
    | Raise e =>
        ∃ done_ argv o,
          outs = done_ ++ [o] ∧ Forall exited_zero done_ ∧
          cmds !! length done_ = Some argv ∧ failure_of argv o = Some e
    end.
Proof.
  revert w. induction cmds as [|argv cmds IH]; intros w.
  - exists []. simpl. by rewrite app_nil_r.
  - simpl. unfold bind.
    destruct (process_call host argv w) as [[v|e] w1] eqn:E.
    + apply process_call_inv_Ok in E as [Hz ->].
      destruct (IH {| files := (popen host argv w).2;
                      trace := trace w ++
                               [Spawned argv (popen host argv w).1] |})
        as (outs & Htr & Hres).
      exists ((popen host argv w).1 :: outs). split.
      * rewrite Htr. simpl. by rewrite <- app_assoc.
      * destruct (run_each host cmds _).1 as [[]|e].
        -- destruct Hres as [Hlen Hall]. simpl. split; [by f_equal | by constructor].
        -- destruct Hres as (done_ & argv' & o & -> & Hall & Hlook & Hfail).
           exists ((popen host argv w).1 :: done_), argv', o.
           repeat split; [by constructor | done | done].
    + apply process_call_inv_Raise in E as [Hfail ->].
      exists [(popen host argv w).1]. split.
      * simpl. by rewrite zip_with_nil_r.
      * simpl. exists [], argv, (popen host argv w).1. by repeat split.
Qed.

Lemma connect_eq self w :
  connect host self w =
    (create_config_file host self ;; run_each host (connect_commands self)) w.
Proof.
  unfold connect, move_config_file, connect_commands, run_each, bind, ret.
  destruct (create_config_file host self w) as [[[]|e] w0]; [|done].
  destruct (process_call host _ w0) as [[v1|e] w1]; [|done].
  destruct (process_call host _ w1) as [[v2|e] w2]; [|done].
  destruct (process_call host _ w2) as [[v3|e] w3]; [|done].
  by destruct (process_call host _ w3) as [[v4|e] w4].
Qed.

Lemma process_call_cases argv w :
  match failure_of argv (popen host argv w).1 with
  | Some e => process_call host argv w = (Raise e, after host argv w)
  | None => ∃ v, process_call host argv w = (Ok v, after host argv w)
  end.
Proof.
  unfold process_call, failure_of, after.
  destruct (popen host argv w) as [[rc out err|msg] fs]; simpl; [|done].
  destruct (bool_decide (rc ≠ 0)); [done | by eexists].
Qed.

(** C7: [connect] first renders the file at the temp path; if that
    raises, [connect] raises the same and nothing else is done.
    Otherwise the host runs [mv temp folder] in the world rendering
    left; if it did not exit with zero [connect] raises its failure (a
    [ProcessException] for a non-zero exit) from the world [mv] left,
    and no other command is run.  If it did, the host runs
    [chown root:root path] in that world, then in the same way
    [chmod 600 path], then [vpnc tempvpnc]: each is run only when all
    before it exited with zero, in the world the one before left, and
    the first that does not exit with zero ends [connect] with its
    failure.  [connect] returns when all four exited with zero. *)
Theorem connect_sequence self w :
  let mv := ["mv"; temp_config_path self; config_folder self] in
  let chown := ["chown"; "root:root"; config_path self] in
  let chmod := ["chmod"; "600"; config_path self] in
  let vpnc := ["vpnc"; "tempvpnc"] in
  let w0 := (create_config_file host self w).2 in
  let w1 := after host mv w0 in
  let w2 := after host chown w1 in
  let w3 := after host chmod w2 in
  let w4 := after host vpnc w3 in
  match (create_config_file host self w).1 with
  | Raise e => connect host self w = (Raise e, w0)
  | Ok _ =>
      (∃ data,
         trace w0 =
           trace w ++ [Opened (temp_config_path self);
                       Wrote (temp_config_path self) data]) ∧
      connect host self w =
        match failure_of mv (popen host mv w0).1 with
        | Some e => (Raise e, w1)
        | None =>
        match failure_of chown (popen host chown w1).1 with
        | Some e => (Raise e, w2)
        | None =>
        match failure_of chmod (popen host chmod w2).1 with
        | Some e => (Raise e, w3)
        | None =>
        match failure_of vpnc (popen host vpnc w3).1 with
        | Some e => (Raise e, w4)
        | None => (Ok tt, w4)
        end end end end
  end.
Proof.
  intros mv chown chmod vpnc w0 w1 w2 w3 w4.
  subst w4 w3 w2 w1 w0.
  pose proof (create_config_file_eq self w) as Hrender.
  unfold connect, move_config_file, bind, ret. fold mv chown chmod vpnc.
  destruct (create_config_file host self w) as [[[]|e] w0]; simpl; [|done].
  split.
  - destruct (may_open host (temp_config_path self) w); [|done].
    destruct (percent_format _ _ _) as [text|e]; [|done].
    injection Hrender as ->. by eexists.
  - pose proof (process_call_cases mv w0) as H1.
    destruct (failure_of mv _); [by rewrite H1 | destruct H1 as [v1 ->]].
    pose proof (process_call_cases chown (after host mv w0)) as H2.
    destruct (failure_of chown _); [by rewrite H2 | destruct H2 as [v2 ->]].
    pose proof (process_call_cases chmod
                  (after host chown (after host mv w0))) as H3.
    destruct (failure_of chmod _); [by rewrite H3 | destruct H3 as [v3 ->]].
    pose proof (process_call_cases vpnc
                  (after host chmod (after host chown (after host mv w0))))
      as H4.
    destruct (failure_of vpnc _); [by rewrite H4 | by destruct H4 as [v4 ->]].
Qed.

(** ** Removing the file and disconnecting *)

(** A non-zero exit of [rm] leaves [remove_config_file] as a
    [ProcessException]: the class is not a subclass of the one the
    [except] clause names. *)
Lemma remove_config_file_raises self w rc out err fs :
  popen host ["rm"; config_path self] w = (Exited rc out err, fs) →
  rc ≠ 0 →
  remove_config_file host self w =
    (Raise (ExProcess
              (mkProcessException rc ["rm"; config_path self] out err)),
     {| files := fs;
        trace := trace w ++
                 [Spawned ["rm"; config_path self] (Exited rc out err)] |}).
Proof.
  intros Hrun Hrc. unfold remove_config_file, try_except, bind.
  rewrite (process_call_exited _ _ _ _ _ _ Hrun).
  by rewrite bool_decide_true.
Qed.

(** The handler of [remove_config_file] is dead code: no run returns
    [False]. *)
Lemma remove_config_file_never_False self w w' :
  remove_config_file host self w ≠ (Ok false, w').
Proof.
  unfold remove_config_file, try_except, bind.
  destruct (process_call host ["rm"; config_path self] w) as [[v|e] w1] eqn:E.
  - discriminate.
  - rewrite (process_call_not_CalledProcessError _ _ _ _ E). discriminate.
Qed.

(** In every run the first thing [disconnect] does is to run
    [vpnc-disconnect]; a removal, if there is one, comes next. *)
Lemma disconnect_order self w :
  ∃ rest,
    trace (disconnect host self w).2 =
      trace w ++
      Spawned ["vpnc-disconnect"] (popen host ["vpnc-disconnect"] w).1 :: rest ∧
    (rest = [] ∨ ∃ o, rest = [Spawned ["rm"; config_path self] o]).
Proof.
  unfold disconnect, bind.
  pose proof (process_call_world ["vpnc-disconnect"] w) as Hw.
  destruct (process_call host ["vpnc-disconnect"] w) as [[v|e] w1]; simpl in Hw.
  - pose proof (process_call_world ["rm"; config_path self] w1) as Hw2.
    unfold remove_config_file, try_except, bind.
    destruct (process_call host ["rm"; config_path self] w1) as [[v2|e2] w2] eqn:E;
      simpl in Hw2.
    + eexists. split; [|right; eauto]. simpl. rewrite Hw2, Hw. simpl.
      by rewrite <- app_assoc.
    + rewrite (process_call_not_CalledProcessError _ _ _ _ E).
      eexists. split; [|right; eauto]. simpl. rewrite Hw2, Hw. simpl.
      by rewrite <- app_assoc.
  - exists []. split; [|by left]. simpl. by rewrite Hw.
Qed.

Lemma disconnect_raises self w rc out err fs :
  popen host ["vpnc-disconnect"] w = (Exited rc out err, fs) →
  rc ≠ 0 →
  disconnect host self w =
    (Raise (ExProcess (mkProcessException rc ["vpnc-disconnect"] out err)),
     {| files := fs;
        trace := trace w ++
                 [Spawned ["vpnc-disconnect"] (Exited rc out err)] |}).
Proof.
  intros Hrun Hrc. unfold disconnect, bind.
  rewrite (process_call_exited _ _ _ _ _ _ Hrun).
  by rewrite bool_decide_true.
Qed.

(** C10: in every run of [disconnect] the first thing done is to run
    [vpnc-disconnect], and a removal, if any, comes after it; when
    [vpnc-disconnect] exits non-zero, [disconnect] raises the
    [ProcessException] of that command, its trace ends there (no [rm] is
    run), and the files, the one at the privileged path among them, are
    as [vpnc-disconnect] left them. *)
Theorem disconnect_failure_skips_removal self w :
  (∃ rest,
     trace (disconnect host self w).2 =
       trace w ++
       Spawned ["vpnc-disconnect"] (popen host ["vpnc-disconnect"] w).1
       :: rest ∧
     (rest = [] ∨ ∃ o, rest = [Spawned ["rm"; config_path self] o])) ∧
  (∀ rc out err fs,
     popen host ["vpnc-disconnect"] w = (Exited rc out err, fs) →
     rc ≠ 0 →
     (disconnect host self w).1 =
       Raise (ExProcess
                (mkProcessException rc ["vpnc-disconnect"] out err)) ∧
     trace (disconnect host self w).2 =
       trace w ++ [Spawned ["vpnc-disconnect"] (Exited rc out err)] ∧
     files (disconnect host self w).2 = fs).
Proof.
  split; [apply disconnect_order |].
  intros rc out err fs Hrun Hrc.
  by rewrite (disconnect_raises self w rc out err fs Hrun Hrc).
Qed.

(** ** The scoped session *)

(** C3: [with self.vpn(): block] calls [connect] on entry (and stops
    there if it raises); when the block completes, [disconnect] is
    called next and its outcome is the outcome of the statement; when
    the block raises, that exception leaves the statement from the world
    the block left, [disconnect] not having been called. *)
Theorem vpn_scope self (block : M unit) w :
  with_stmt (vpn host self) block w =
    match connect host self w with
    | (Raise e, w1) => (Raise e, w1)
    | (Ok _, w1) =>
        match block w1 with
        | (Raise e, w2) => (Raise e, w2)
        | (Ok _, w2) => disconnect host self w2
        end
    end.
Proof.
  unfold with_stmt, vpn, cm_enter, cm_exit, gen_throw, bind, ret, raise.
  simpl. unfold bind, ret.
  destruct (connect host self w) as [[[]|e] w1]; [|done].
  destruct (block w1) as [[[]|e] w2].
  - simpl. unfold bind, ret.
    by destruct (disconnect host self w2) as [[[]|e] w3].
  - by rewrite bool_decide_true.
Qed.

(** ** The message of a failure *)

(** C4: for a negative return code the message names the signal
    [-returncode] when the table knows it, and says
    [unknown signal N], with [N = -returncode], when it does not; for a
    positive return code it reports the non-zero exit status. *)
Theorem ProcessException_str_cases (self : ProcessException) :
  (returncode self < 0 →
   ∀ name, Signals host (- returncode self) = Some name →
     ProcessException_str host self =
       "Command '" +:+ str_list (cmd self) +:+ "' died with " +:+
       ("<Signals." +:+ name +:+ ": " +:+ fmt_d (- returncode self) +:+ ">")
       +:+ ".") ∧
  (returncode self < 0 →
   Signals host (- returncode self) = None →
     ProcessException_str host self =
       "Command '" +:+ str_list (cmd self) +:+
       "' died with unknown signal " +:+ fmt_d (- returncode self) +:+ ".") ∧
  (0 < returncode self →
     ProcessException_str host self =
       "Command '" +:+ str_list (cmd self) +:+
       "' returned non-zero exit status " +:+ fmt_d (returncode self) +:+ ".").
Proof.
  unfold ProcessException_str, repr_signal.
  repeat split.
  - intros Hneg name Hname.
    rewrite bool_decide_true by lia.
    rewrite (proj2 (Z.ltb_lt _ _) Hneg). simpl. by rewrite Hname.
  - intros Hneg Hname.
    rewrite bool_decide_true by lia.
    rewrite (proj2 (Z.ltb_lt _ _) Hneg). simpl. by rewrite Hname.
  - intros Hpos.
    rewrite (proj2 (Z.ltb_ge _ _)) by lia. by rewrite andb_false_r.
Qed.

(** ** The constructor *)

Lemma prefix_darwin_not_linux (platform : string) :
  String.prefix "darwin" platform = true →
  String.prefix "linux" platform = false.
Proof.
  destruct platform as [|c rest]; [done |].
  change (String.prefix "darwin" (String c rest))
    with (if ascii_dec "d" c then String.prefix "arwin" rest else false).
  change (String.prefix "linux" (String c rest))
    with (if ascii_dec "l" c then String.prefix "inux" rest else false).
  destruct (ascii_dec "d" c) as [<-|]; [|done]. intros _.
  by destruct (ascii_dec "l" "d").
Qed.

Lemma os_path_join_Some dir file :
  ∃ path, os_path_join (Some dir) file = Ok path.
Proof.
  unfold os_path_join.
  destruct (String.prefix "/" file); [by eexists |].
  destruct (_ || _); by eexists.
Qed.

(** C8: with the default file name and no folder given, the temp path
    is [HERE] joined with [tempvpnc.conf]; the privileged path is
    [/etc/vpnc] joined with it where [sys.platform] starts with [linux],
    and [/usr/local/etc/vpnc] joined with it where it starts with
    [darwin]. *)
Theorem default_paths cfg :
  (String.prefix "linux" (sys_platform host) = true →
   ∃ self,
     VPNC_init host cfg default_config_file None = Ok self ∧
     os_path_join (Some (HERE host)) "tempvpnc.conf"
       = Ok (temp_config_path self) ∧
     os_path_join (Some "/etc/vpnc") "tempvpnc.conf"
       = Ok (config_path self) ∧
     config_path self = "/etc/vpnc/tempvpnc.conf") ∧
  (String.prefix "darwin" (sys_platform host) = true →
   ∃ self,
     VPNC_init host cfg default_config_file None = Ok self ∧
     os_path_join (Some (HERE host)) "tempvpnc.conf"
       = Ok (temp_config_path self) ∧
     os_path_join (Some "/usr/local/etc/vpnc") "tempvpnc.conf"
       = Ok (config_path self) ∧
     config_path self = "/usr/local/etc/vpnc/tempvpnc.conf").
Proof.
  split; intros Hplat; unfold VPNC_init, default_config_file.
  - rewrite Hplat.
    destruct (os_path_join_Some (HERE host) "tempvpnc.conf") as [temp ->].
    eexists. by repeat split.
  - rewrite (prefix_darwin_not_linux _ Hplat), Hplat.
    destruct (os_path_join_Some (HERE host) "tempvpnc.conf") as [temp ->].
    eexists. by repeat split.
Qed.

(** C9: with no folder given, on a platform whose name starts with
    neither [linux] nor [darwin], the constructor raises [TypeError]
    (from joining [None] with the file name) and returns no object. *)
Theorem unsupported_platform_raises_TypeError cfg file :
  String.prefix "linux" (sys_platform host) = false →
  String.prefix "darwin" (sys_platform host) = false →
  ∃ msg, VPNC_init host cfg file None = Raise (TypeError msg).
Proof.
  intros Hlinux Hdarwin. unfold VPNC_init. rewrite Hlinux, Hdarwin.
  destruct (os_path_join_Some (HERE host) file) as [temp ->].
  by eexists.
Qed.

End Properties.

(** * The properties at concrete hosts *)

Lemma process_call_raises_iff_nonzero_witness :
  ((∃ e, (process_call Sample.vpnc_fails ["vpnc"; "tempvpnc"]
            Sample.start).1 = Raise e) ↔ 2 ≠ 0) ∧
  (2 ≠ 0 →
     ∃ pe, (process_call Sample.vpnc_fails ["vpnc"; "tempvpnc"]
              Sample.start).1 = Raise (ExProcess pe) ∧
           returncode pe = 2 ∧ cmd pe = ["vpnc"; "tempvpnc"] ∧
           stdout pe = "" ∧ stderr pe = "") ∧
  (2 = 0 →
     (process_call Sample.vpnc_fails ["vpnc"; "tempvpnc"] Sample.start).1
       = Ok (0, "", "")).
Proof.
  exact (process_call_raises_iff_nonzero Sample.vpnc_fails
           ["vpnc"; "tempvpnc"] Sample.start 2 "" "" ∅ eq_refl).
Defined.

(** C1, on the code: [rm] exits with 1 (the file is not there, say).
    [remove_config_file] does not return [False]: the [ProcessException]
    leaves it, and leaves [disconnect] after a successful
    [vpnc-disconnect]. *)
Theorem remove_config_file_failure_escapes :
  (remove_config_file Sample.rm_fails Sample.self Sample.start).1 =
    Raise (ExProcess (mkProcessException 1
             ["rm"; "/etc/vpnc/tempvpnc.conf"] "" "")) ∧
  (disconnect Sample.rm_fails Sample.self Sample.start).1 =
    Raise (ExProcess (mkProcessException 1
             ["rm"; "/etc/vpnc/tempvpnc.conf"] "" "")) ∧
  trace (disconnect Sample.rm_fails Sample.self Sample.start).2 =
    [Spawned ["vpnc-disconnect"] (Exited 0 "" "");
     Spawned ["rm"; "/etc/vpnc/tempvpnc.conf"] (Exited 1 "" "")].
Proof. repeat split. Qed.

Lemma disconnect_failure_skips_removal_witness :
  (disconnect Sample.disconnect_fails Sample.self Sample.connected).1 =
    Raise (ExProcess (mkProcessException 1 ["vpnc-disconnect"] "" "")) ∧
  trace (disconnect Sample.disconnect_fails Sample.self Sample.connected).2 =
    [Spawned ["vpnc-disconnect"] (Exited 1 "" "")] ∧
  files (disconnect Sample.disconnect_fails Sample.self Sample.connected).2 =
    {[ "/etc/vpnc/tempvpnc.conf" := "IPSec gateway ..." ]}.
Proof.
  exact (proj2 (disconnect_failure_skips_removal
                  Sample.disconnect_fails Sample.self Sample.connected)
           1 "" "" (files Sample.connected) eq_refl ltac:(lia)).
Defined.

(** Rendering the config of the module's docstring. *)
Lemma create_config_file_six_lines_witness :
  ∃ content,
    (create_config_file Sample.linux Sample.self Sample.start).1 = Ok tt ∧
    files (create_config_file Sample.linux Sample.self Sample.start).2
      !! "/opt/pyvpnc/vpnc/tempvpnc.conf" = Some content ∧
    lines content =
      ["IPSec gateway my.gateway.com"; "IPSec ID my IPSec ID";
       "IPSec secret my IPSec secret"; "IKE Authmode psk";
       "Xauth username my Xauth username";
       "Xauth password my Xauth password"].
Proof.
  exact (create_config_file_six_lines Sample.linux Sample.self Sample.start
           "my.gateway.com" "my IPSec ID" "my IPSec secret" "psk"
           "my Xauth username" "my Xauth password"
           eq_refl eq_refl eq_refl eq_refl eq_refl eq_refl eq_refl
           eq_refl eq_refl eq_refl eq_refl eq_refl eq_refl).
Defined.

(** C6 as stated fails: a secret of two lines is a string like any
    other; all six fields are there, the call completes, and the file
    has seven lines, the third of which is cut short. *)
Lemma create_config_file_seven_lines :
  Forall (fun k => is_Some (Sample.two_line_secret !! k)) required_keys ∧
  (create_config_file Sample.linux (Sample.client Sample.two_line_secret)
     Sample.start).1 = Ok tt ∧
  ∃ content,
    files (create_config_file Sample.linux
             (Sample.client Sample.two_line_secret) Sample.start).2
      !! "/opt/pyvpnc/vpnc/tempvpnc.conf" = Some content ∧
    lines content =
      ["IPSec gateway my.gateway.com"; "IPSec ID my IPSec ID";
       "IPSec secret first"; "second"; "IKE Authmode psk";
       "Xauth username my Xauth username";
       "Xauth password my Xauth password"] ∧
    length (lines content) ≠ 6%nat.
Proof.
  split; [|split].
  - unfold required_keys. repeat constructor; by eexists.
  - reflexivity.
  - eexists. split; [reflexivity |]. split; [reflexivity | discriminate].
Qed.

Lemma create_config_file_missing_key_witness :
  first_missing Sample.no_id = Some "IPSec_ID" ∧
  create_config_file Sample.linux (Sample.client Sample.no_id) Sample.start =
    (Raise (KeyError "IPSec_ID"),
     {| files := {[ "/opt/pyvpnc/vpnc/tempvpnc.conf" := "" ]};
        trace := [Opened "/opt/pyvpnc/vpnc/tempvpnc.conf"] |}).
Proof.
  assert (∃ k, k ∈ required_keys ∧ Sample.no_id !! k = None) as Hmiss.
  { exists "IPSec_ID". split; [|reflexivity].
    unfold required_keys. set_solver. }
  destruct (create_config_file_missing_key Sample.linux
              (Sample.client Sample.no_id) Sample.start eq_refl Hmiss)
    as (k & Hfirst & Hrun).
  vm_compute in Hfirst. injection Hfirst as <-.
  split; [reflexivity | exact Hrun].
Defined.

(** C2 as stated fails: with [IPSec_ID] absent the call does not
    complete, and the file it leaves holds no line and no marker: it is
    empty. *)
Lemma create_config_file_no_placeholder :
  Sample.no_id !! "IPSec_ID" = None ∧
  (create_config_file Sample.linux (Sample.client Sample.no_id)
     Sample.start).1 = Raise (KeyError "IPSec_ID") ∧
  files (create_config_file Sample.linux (Sample.client Sample.no_id)
           Sample.start).2 !! "/opt/pyvpnc/vpnc/tempvpnc.conf" = Some "".
Proof. repeat split. Qed.

Lemma ProcessException_str_cases_witness :
  ProcessException_str Sample.linux
    (mkProcessException (-9) ["vpnc"; "tempvpnc"] "" "")
    = "Command '['vpnc', 'tempvpnc']' died with <Signals.SIGKILL: 9>." ∧
  ProcessException_str Sample.linux
    (mkProcessException (-99) ["vpnc"; "tempvpnc"] "" "")
    = "Command '['vpnc', 'tempvpnc']' died with unknown signal 99." ∧
  ProcessException_str Sample.linux
    (mkProcessException 2 ["vpnc"; "tempvpnc"] "" "")
    = "Command '['vpnc', 'tempvpnc']' returned non-zero exit status 2.".
Proof.
  split; [|split].
  - exact (proj1 (ProcessException_str_cases Sample.linux
                    (mkProcessException (-9) ["vpnc"; "tempvpnc"] "" ""))
             ltac:(simpl; lia) "SIGKILL" eq_refl).
  - exact (proj1 (proj2 (ProcessException_str_cases Sample.linux
                    (mkProcessException (-99) ["vpnc"; "tempvpnc"] "" "")))
             ltac:(simpl; lia) eq_refl).
  - exact (proj2 (proj2 (ProcessException_str_cases Sample.linux
                    (mkProcessException 2 ["vpnc"; "tempvpnc"] "" "")))
             ltac:(simpl; lia)).
Defined.

Lemma default_paths_witness :
  (∃ self,
     VPNC_init Sample.linux None default_config_file None = Ok self ∧
     temp_config_path self = "/opt/pyvpnc/vpnc/tempvpnc.conf" ∧
     config_path self = "/etc/vpnc/tempvpnc.conf") ∧
  (∃ self,
     VPNC_init Sample.darwin None default_config_file None = Ok self ∧
     temp_config_path self = "/opt/pyvpnc/vpnc/tempvpnc.conf" ∧
     config_path self = "/usr/local/etc/vpnc/tempvpnc.conf").
Proof.
  split.
  - destruct (proj1 (default_paths Sample.linux None) eq_refl)
      as (self & Hinit & Htemp & _ & Hpath).
    exists self. repeat split; [exact Hinit | | exact Hpath].
    change (Ok "/opt/pyvpnc/vpnc/tempvpnc.conf" = Ok (temp_config_path self))
      in Htemp.
    by injection Htemp.
  - destruct (proj2 (default_paths Sample.darwin None) eq_refl)
      as (self & Hinit & Htemp & _ & Hpath).
    exists self. repeat split; [exact Hinit | | exact Hpath].
    change (Ok "/opt/pyvpnc/vpnc/tempvpnc.conf" = Ok (temp_config_path self))
      in Htemp.
    by injection Htemp.
Defined.

Lemma unsupported_platform_raises_TypeError_witness :
  ∃ msg,
    VPNC_init Sample.win32 (Some Sample.full_config) default_config_file None
      = Raise (TypeError msg).
Proof.
  exact (unsupported_platform_raises_TypeError Sample.win32
           (Some Sample.full_config) default_config_file eq_refl eq_refl).
Defined.

(** ** Runs of [connect] and of the scoped session *)

Example connect_all_succeed :
  (connect Sample.linux Sample.self Sample.start).1 = Ok tt ∧
  map Sample.what (trace (connect Sample.linux Sample.self Sample.start).2) =
    [["open"]; ["write"];
     ["mv"; "/opt/pyvpnc/vpnc/tempvpnc.conf"; "/etc/vpnc"];
     ["chown"; "root:root"; "/etc/vpnc/tempvpnc.conf"];
     ["chmod"; "600"; "/etc/vpnc/tempvpnc.conf"];
     ["vpnc"; "tempvpnc"]].
Proof. split; reflexivity. Qed.

Example connect_chown_fails :
  (connect Sample.chown_fails Sample.self Sample.start).1 =
    Raise (ExProcess (mkProcessException 1
             ["chown"; "root:root"; "/etc/vpnc/tempvpnc.conf"] "" "")) ∧
  map Sample.what
      (trace (connect Sample.chown_fails Sample.self Sample.start).2) =
    [["open"]; ["write"];
     ["mv"; "/opt/pyvpnc/vpnc/tempvpnc.conf"; "/etc/vpnc"];
     ["chown"; "root:root"; "/etc/vpnc/tempvpnc.conf"]].
Proof. split; reflexivity. Qed.

Example vpn_block_completes :
  (with_stmt (vpn Sample.linux Sample.self) (ret tt) Sample.start).1 = Ok tt ∧
  map Sample.what
      (trace (with_stmt (vpn Sample.linux Sample.self) (ret tt)
                Sample.start).2) =
    [["open"]; ["write"];
     ["mv"; "/opt/pyvpnc/vpnc/tempvpnc.conf"; "/etc/vpnc"];
     ["chown"; "root:root"; "/etc/vpnc/tempvpnc.conf"];
     ["chmod"; "600"; "/etc/vpnc/tempvpnc.conf"];
     ["vpnc"; "tempvpnc"];
     ["vpnc-disconnect"];
     ["rm"; "/etc/vpnc/tempvpnc.conf"]].
Proof. split; reflexivity. Qed.

Example vpn_block_raises :
  (with_stmt (vpn Sample.linux Sample.self)
     (raise (ValueError "in the block")) Sample.start).1 =
    Raise (ValueError "in the block") ∧
  map Sample.what
      (trace (with_stmt (vpn Sample.linux Sample.self)
                (raise (ValueError "in the block")) Sample.start).2) =
    [["open"]; ["write"];
     ["mv"; "/opt/pyvpnc/vpnc/tempvpnc.conf"; "/etc/vpnc"];
     ["chown"; "root:root"; "/etc/vpnc/tempvpnc.conf"];
     ["chmod"; "600"; "/etc/vpnc/tempvpnc.conf"];
     ["vpnc"; "tempvpnc"]].
Proof. split; reflexivity. Qed.

(** * Further properties of the module *)

Section More.
Context (host : Host).

(** ** Rendering: what ends up in the file *)

Lemma create_config_file_complete self w g i s a u p :
  config self !! "IPSec_gateway" = Some g →
  config self !! "IPSec_ID" = Some i →
  config self !! "IPSec_secret" = Some s →
  config self !! "IKE_Authmode" = Some a →
  config self !! "Xauth_username" = Some u →
  config self !! "Xauth_password" = Some p →
  may_open host (temp_config_path self) w = true →
  create_config_file host self w =
    (Ok tt,
     {| files := <[temp_config_path self := rendered g i s a u p +:+ NL]>
                   (files w);
        trace := trace w ++
                 [Opened (temp_config_path self);
                  Wrote (temp_config_path self)
                    (rendered g i s a u p +:+ NL)] |}).
Proof.
  intros Hg Hi Hs Ha Hu Hp Hopen.
  rewrite create_config_file_eq, Hopen.
  by rewrite (format_template_complete (fun k => config self !! k)
                g i s a u p Hg Hi Hs Ha Hu Hp).
Qed.

(** X1: when the temp path cannot be opened for writing,
    [create_config_file] raises the error of [open] and changes nothing;
    [connect] then raises the same error, and no command is run. *)
Theorem create_config_file_unwritable self w :
  may_open host (temp_config_path self) w = false →
  create_config_file host self w =
    (Raise (OSError (temp_config_path self)), w) ∧
  connect host self w = (Raise (OSError (temp_config_path self)), w).
Proof.
  intros Hopen.
  assert (create_config_file host self w =
            (Raise (OSError (temp_config_path self)), w)) as Hc
    by (by rewrite create_config_file_eq, Hopen).
  split; [exact Hc |].
  rewrite connect_eq. unfold bind. by rewrite Hc.
Qed.

(** X2: with a config that lacks one of the six keys, [connect] raises
    [KeyError] for the first absent key of the template before any
    command is run: all it has done is to create or truncate the temp
    file, which is left empty. *)
Theorem connect_incomplete_config self w :
  may_open host (temp_config_path self) w = true →
  (∃ k, k ∈ required_keys ∧ config self !! k = None) →
  ∃ k, first_missing (config self) = Some k ∧
       connect host self w =
         (Raise (KeyError k),
          {| files := <[temp_config_path self := ""]> (files w);
             trace := trace w ++ [Opened (temp_config_path self)] |}).
Proof.
  intros Hopen Hmiss.
  destruct (format_template_missing (fun k => config self !! k) Hmiss)
    as (k & Hfirst & Hfmt).
  exists k. split; [exact Hfirst |].
  rewrite connect_eq. unfold bind.
  by rewrite create_config_file_eq, Hopen, Hfmt.
Qed.

(** X3: for a config with the six fields, whatever characters the values
    hold and whatever other keys the config has, the file at the temp
    path holds afterwards exactly the six key texts, each followed by
    its value as it is and a line feed; what the file held before is
    gone, and no other file is changed. *)
Theorem create_config_file_content self w g i s a u p :
  config self !! "IPSec_gateway" = Some g →
  config self !! "IPSec_ID" = Some i →
  config self !! "IPSec_secret" = Some s →
  config self !! "IKE_Authmode" = Some a →
  config self !! "Xauth_username" = Some u →
  config self !! "Xauth_password" = Some p →
  may_open host (temp_config_path self) w = true →
  (create_config_file host self w).1 = Ok tt ∧
  files (create_config_file host self w).2 !! temp_config_path self =
    Some ("IPSec gateway " +:+ g +:+ NL +:+
          "IPSec ID " +:+ i +:+ NL +:+
          "IPSec secret " +:+ s +:+ NL +:+
          "IKE Authmode " +:+ a +:+ NL +:+
          "Xauth username " +:+ u +:+ NL +:+
          "Xauth password " +:+ p +:+ NL) ∧
  ∀ path, path ≠ temp_config_path self →
          files (create_config_file host self w).2 !! path = files w !! path.
Proof.
  intros Hg Hi Hs Ha Hu Hp Hopen.
  rewrite (create_config_file_complete self w g i s a u p
             Hg Hi Hs Ha Hu Hp Hopen). simpl.
  split; [done |]. split.
  - rewrite lookup_insert_eq. f_equal.
    unfold rendered. by rewrite !append_assoc.
  - intros path Hne. by rewrite lookup_insert_ne.
Qed.

(** ** Rendering: lines *)

Lemma count_lf_append (a b : string) :
  count_lf (a +:+ b) = (count_lf a + count_lf b)%nat.
Proof.
  induction a as [|c a IH]; [done |].
  rewrite append_cons. simpl. rewrite IH. lia.
Qed.

Lemma lines_length_cons (a rest : string) :
  length (lines (a +:+ String LF rest)) =
    (count_lf a + 1 + length (lines rest))%nat.
Proof.
  induction a as [|c a IH]; [reflexivity |].
  rewrite append_cons. simpl.
  destruct (bool_decide (c = LF)).
  - simpl. rewrite IH. lia.
  - destruct (lines (a +:+ String LF rest)) as [|l ls]; simpl in *; lia.
Qed.

Lemma lines_length_key_value (key value rest : string) :
  length (lines (key +:+ value +:+ NL +:+ rest)) =
    (count_lf key + count_lf value + 1 + length (lines rest))%nat.
Proof.
  rewrite <- append_assoc. change (NL +:+ rest) with (String LF rest).
  by rewrite lines_length_cons, count_lf_append.
Qed.

Lemma lines_rendered g i s a u p :
  no_line_feed g → no_line_feed i → no_line_feed s →
  no_line_feed a → no_line_feed u → no_line_feed p →
  lines (rendered g i s a u p +:+ NL) =
    ["IPSec gateway " +:+ g; "IPSec ID " +:+ i; "IPSec secret " +:+ s;
     "IKE Authmode " +:+ a; "Xauth username " +:+ u;
     "Xauth password " +:+ p].
Proof.
  intros Ng Ni Ns Na Nu Np.
  unfold rendered. rewrite !append_assoc.
  rewrite !lines_key_value by (assumption || reflexivity).
  rewrite <- (append_empty_r NL), lines_key_value
    by (assumption || reflexivity).
  done.
Qed.

(** X4: for a config with the six fields, the file written has six
    lines and one more for every line feed in the six values. *)
Theorem create_config_file_line_count self w g i s a u p :
  config self !! "IPSec_gateway" = Some g →
  config self !! "IPSec_ID" = Some i →
  config self !! "IPSec_secret" = Some s →
  config self !! "IKE_Authmode" = Some a →
  config self !! "Xauth_username" = Some u →
  config self !! "Xauth_password" = Some p →
  may_open host (temp_config_path self) w = true →
  ∃ content,
    files (create_config_file host self w).2 !! temp_config_path self
      = Some content ∧
    length (lines content) =
      (6 + (count_lf g + count_lf i + count_lf s +
            count_lf a + count_lf u + count_lf p))%nat.
Proof.
  intros Hg Hi Hs Ha Hu Hp Hopen.
  rewrite (create_config_file_complete self w g i s a u p
             Hg Hi Hs Ha Hu Hp Hopen). simpl.
  eexists. split; [apply lookup_insert_eq |].
  unfold rendered. rewrite !append_assoc.
  rewrite <- (append_empty_r NL) at 6.
  rewrite !lines_length_key_value. simpl. lia.
Qed.

(** X5: among configs whose six values hold no line feed, the file
    determines the values: two renderings that leave the same content
    come from configs that agree on all six fields. *)
Theorem rendering_injective self1 self2 w1 w2 :
  complete_lf_free (config self1) →
  complete_lf_free (config self2) →
  may_open host (temp_config_path self1) w1 = true →
  may_open host (temp_config_path self2) w2 = true →
  files (create_config_file host self1 w1).2 !! temp_config_path self1 =
    files (create_config_file host self2 w2).2 !! temp_config_path self2 →
  ∀ k, k ∈ required_keys → config self1 !! k = config self2 !! k.
Proof.
  intros C1 C2 O1 O2 Heq.
  assert (∀ k, bool_decide (k ∈ required_keys) = true → k ∈ required_keys)
    as Hin by (intros k; apply bool_decide_eq_true_1).
  destruct (C1 "IPSec_gateway") as (g1 & Hg1 & ?); [by apply Hin |].
  destruct (C1 "IPSec_ID") as (i1 & Hi1 & ?); [by apply Hin |].
  destruct (C1 "IPSec_secret") as (s1 & Hs1 & ?); [by apply Hin |].
  destruct (C1 "IKE_Authmode") as (a1 & Ha1 & ?); [by apply Hin |].
  destruct (C1 "Xauth_username") as (u1 & Hu1 & ?); [by apply Hin |].
  destruct (C1 "Xauth_password") as (p1 & Hp1 & ?); [by apply Hin |].
  destruct (C2 "IPSec_gateway") as (g2 & Hg2 & ?); [by apply Hin |].
  destruct (C2 "IPSec_ID") as (i2 & Hi2 & ?); [by apply Hin |].
  destruct (C2 "IPSec_secret") as (s2 & Hs2 & ?); [by apply Hin |].
  destruct (C2 "IKE_Authmode") as (a2 & Ha2 & ?); [by apply Hin |].
  destruct (C2 "Xauth_username") as (u2 & Hu2 & ?); [by apply Hin |].
  destruct (C2 "Xauth_password") as (p2 & Hp2 & ?); [by apply Hin |].
  rewrite (create_config_file_complete self1 w1 g1 i1 s1 a1 u1 p1)
    in Heq by assumption.
  rewrite (create_config_file_complete self2 w2 g2 i2 s2 a2 u2 p2)
    in Heq by assumption.
  simpl in Heq. rewrite !lookup_insert_eq in Heq.
  apply (inj Some) in Heq. apply (f_equal lines) in Heq.
  rewrite !lines_rendered in Heq by assumption.
  injection Heq as Eg Ei Es Ea Eu Ep.
  apply String.app_inj in Eg, Ei, Es, Ea, Eu, Ep. subst.
  intros k Hk. unfold required_keys in Hk.
  repeat (apply elem_of_cons in Hk as [-> | Hk]; [congruence |]).
  by apply elem_of_nil in Hk.
Qed.

(** ** Removing and disconnecting: every outcome *)

Lemma exited_zero_no_failure argv o :
  exited_zero o ↔ failure_of argv o = None.
Proof.
  unfold exited_zero, failure_of. destruct o as [rc out err|msg].
  - case_bool_decide as Hrc; split.
    + intros (? & ? & [= -> _ _]). done.
    + done.
    + done.
    + intros _. assert (rc = 0) as -> by lia. eauto.
  - split; [intros (? & ? & [=]) | done].
Qed.

(** X6: [remove_config_file] returns [True] when [rm] exits with zero
    and raises otherwise ([ProcessException] for a non-zero exit, the
    error of [Popen] when [rm] cannot be started); in no run does it
    return [False]. *)
Theorem remove_config_file_outcomes self w :
  (remove_config_file host self w).1 =
    match (popen host ["rm"; config_path self] w).1 with
    | Exited rc out err =>
        if bool_decide (rc = 0) then Ok true
        else Raise (ExProcess (mkProcessException rc
                                 ["rm"; config_path self] out err))
    | NotStarted msg => Raise (OSError msg)
    end ∧
  (remove_config_file host self w).1 ≠ Ok false.
Proof.
  unfold remove_config_file, try_except, bind, process_call.
  destruct (popen host ["rm"; config_path self] w) as [[rc out err|msg] fs];
    simpl; [|done].
  case_bool_decide as Hrc.
  - by rewrite bool_decide_false.
  - assert (rc = 0) as -> by lia. done.
Qed.

(** X7: [disconnect] returns normally exactly when [vpnc-disconnect]
    exits with zero and [rm], run next on the privileged path, exits
    with zero too. *)
Theorem disconnect_succeeds_iff self w :
  (disconnect host self w).1 = Ok tt ↔
  exited_zero (popen host ["vpnc-disconnect"] w).1 ∧
  exited_zero
    (popen host ["rm"; config_path self]
       {| files := (popen host ["vpnc-disconnect"] w).2;
          trace := trace w ++
                   [Spawned ["vpnc-disconnect"]
                      (popen host ["vpnc-disconnect"] w).1] |}).1.
Proof.
  unfold disconnect, bind.
  destruct (process_call host ["vpnc-disconnect"] w) as [[v|e] w1] eqn:E1.
  - apply process_call_inv_Ok in E1 as [Hz ->].
    unfold remove_config_file, try_except, bind.
    destruct (process_call host ["rm"; config_path self] _) as [[v2|e2] w2] eqn:E2.
    + apply process_call_inv_Ok in E2 as [Hz2 _]. simpl. by split.
    + rewrite (process_call_not_CalledProcessError _ _ _ _ _ E2).
      apply process_call_inv_Raise in E2 as [Hf _]. simpl.
      split; [done |]. intros [_ Hz2].
      apply (exited_zero_no_failure ["rm"; config_path self]) in Hz2.
      congruence.
  - apply process_call_inv_Raise in E1 as [Hf _]. simpl.
    split; [done |]. intros [Hz _].
    apply (exited_zero_no_failure ["vpnc-disconnect"]) in Hz. congruence.
Qed.

(** ** The constructor: folder and file name given *)


(** X9: where [sys.platform] starts with [linux] or [darwin], a file
    name that is an absolute path makes both joins of the constructor
    drop their directory: on every object it returns, the temp path and
    the privileged path are both that very path, whatever folder was
    given or chosen. *)
Theorem VPNC_init_absolute_file cfg file folder self :
  String.prefix "linux" (sys_platform host) = true ∨
  String.prefix "darwin" (sys_platform host) = true →
  String.prefix "/" file = true →
  VPNC_init host cfg file folder = Ok self →
  temp_config_path self = file ∧ config_path self = file.
Proof.
  intros Hposix Habs. unfold VPNC_init, os_path_join. rewrite Habs.
  destruct folder as [dir|].
  - by intros [= <-].
  - destruct Hposix as [-> | Hdarwin].
    + by intros [= <-].
    + rewrite Hdarwin.
      destruct (String.prefix "linux" (sys_platform host)); by intros [= <-].
Qed.

(** X10: an object constructed without a config, or with an empty one,
    cannot connect: [connect] raises [KeyError] for [IPSec_gateway]
    having run no command, the temp file left empty. *)
Theorem connect_without_config cfg file folder self w :
  cfg = None ∨ cfg = Some ∅ →
  VPNC_init host cfg file folder = Ok self →
  may_open host (temp_config_path self) w = true →
  connect host self w =
    (Raise (KeyError "IPSec_gateway"),
     {| files := <[temp_config_path self := ""]> (files w);
        trace := trace w ++ [Opened (temp_config_path self)] |}).
Proof.
  intros Hcfg Hinit Hopen.
  assert (config self = ∅) as Hempty.
  { revert Hinit. unfold VPNC_init.
    destruct (os_path_join _ file) as [temp|]; [|done].
    destruct (os_path_join _ file) as [path|]; [|done].
    destruct Hcfg as [-> | ->];
      (destruct (match folder with Some _ => _ | None => _ end);
       [|done]); by intros [= <-]. }
  rewrite connect_eq. unfold bind.
  rewrite create_config_file_eq, Hopen, format_template_raw.
  by rewrite Hempty, lookup_empty.
Qed.

(** ** The message of a failure: return code zero *)

(** X11: the message is chosen by the sign of the return code alone;
    for every return code that is not negative, zero included, it is
    the one about a non-zero exit status. *)
Theorem ProcessException_str_nonnegative (self : ProcessException) :
  (0 ≤ returncode self)%Z →
  ProcessException_str host self =
    "Command '" +:+ str_list (cmd self) +:+
    "' returned non-zero exit status " +:+ fmt_d (returncode self) +:+ ".".
Proof.
  intros Hrc. unfold ProcessException_str.
  rewrite (proj2 (Z.ltb_ge _ _)) by lia. by rewrite andb_false_r.
Qed.

(** ** What [connect] and the scoped session never do *)

(** X12: [connect] never removes the file it places: whether it succeeds
    or raises, and wherever it stops, no [rm] is among the things it
    does (so a failed [vpnc] leaves the credentials at the privileged
    path). *)
Theorem connect_never_removes self w :
  ∃ added,
    trace (connect host self w).2 = trace w ++ added ∧
    ∀ ev, ev ∈ added → ∀ args o, ev ≠ Spawned ("rm" :: args) o.
Proof.
  rewrite connect_eq. unfold bind.
  rewrite create_config_file_eq.
  destruct (may_open host (temp_config_path self) w).
  - destruct (percent_format _ _ _) as [text|e].
    + match goal with
      | |- context [run_each host ?cmds ?w0] =>
          destruct (run_each_spec host cmds w0) as (outs & Htr & _)
      end.
      exists ([Opened (temp_config_path self);
               Wrote (temp_config_path self) (text +:+ NL)] ++
              zip_with Spawned (connect_commands self) outs). split.
      * rewrite Htr. cbn [trace snd]. by rewrite <- app_assoc.
      * intros ev Hev args o ->.
        apply elem_of_app in Hev as [Hev | Hev].
        -- repeat (apply elem_of_cons in Hev as [[=] | Hev]).
           by apply elem_of_nil in Hev.
        -- apply elem_of_zip_with in Hev as (c & o' & [= <- _] & Hc & _).
           unfold connect_commands in Hc.
           repeat (apply elem_of_cons in Hc as [[=] | Hc]).
           by apply elem_of_nil in Hc.
    + exists [Opened (temp_config_path self)]. split; [done |].
      intros ev Hev args o ->.
      apply list_elem_of_singleton in Hev. discriminate.
  - exists []. split; [by rewrite app_nil_r |].
    intros ev Hev. by apply elem_of_nil in Hev.
Qed.

(** X13: a scoped session on a config that lacks one of the six keys
    never runs its block, whatever the block is: the statement raises
    the [KeyError] of [connect] from the world [connect] left, and
    neither [vpnc] nor [vpnc-disconnect] has been run. *)
Theorem vpn_incomplete_config self (block : M unit) w :
  may_open host (temp_config_path self) w = true →
  (∃ k, k ∈ required_keys ∧ config self !! k = None) →
  ∃ k, first_missing (config self) = Some k ∧
       with_stmt (vpn host self) block w =
         (Raise (KeyError k),
          {| files := <[temp_config_path self := ""]> (files w);
             trace := trace w ++ [Opened (temp_config_path self)] |}).
Proof.
  intros Hopen Hmiss.
  destruct (format_template_missing (fun k => config self !! k) Hmiss)
    as (k & Hfirst & Hfmt).
  exists k. split; [exact Hfirst |].
  unfold with_stmt, vpn, cm_enter, bind. simpl. unfold bind.
  rewrite connect_eq. unfold bind.
  by rewrite create_config_file_eq, Hopen, Hfmt.
Qed.

End More.

(** * The further properties at concrete hosts *)

Lemma create_config_file_unwritable_witness :
  create_config_file Sample.read_only Sample.self Sample.start =
    (Raise (OSError "/opt/pyvpnc/vpnc/tempvpnc.conf"), Sample.start) ∧
  connect Sample.read_only Sample.self Sample.start =
    (Raise (OSError "/opt/pyvpnc/vpnc/tempvpnc.conf"), Sample.start).
Proof.
  exact (create_config_file_unwritable Sample.read_only Sample.self
           Sample.start eq_refl).
Defined.

Lemma no_id_lacks_a_key :
  ∃ k, k ∈ required_keys ∧ Sample.no_id !! k = None.
Proof.
  exists "IPSec_ID". split; [|reflexivity].
  unfold required_keys. apply elem_of_cons. right.
  apply elem_of_cons. by left.
Defined.

Lemma connect_incomplete_config_witness :
  ∃ k, first_missing Sample.no_id = Some k ∧
       connect Sample.linux (Sample.client Sample.no_id) Sample.start =
         (Raise (KeyError k),
          {| files := {[ "/opt/pyvpnc/vpnc/tempvpnc.conf" := "" ]};
             trace := [Opened "/opt/pyvpnc/vpnc/tempvpnc.conf"] |}).
Proof.
  exact (connect_incomplete_config Sample.linux
           (Sample.client Sample.no_id) Sample.start eq_refl
           no_id_lacks_a_key).
Defined.

Lemma create_config_file_content_witness :
  (create_config_file Sample.linux (Sample.client Sample.odd_config)
     Sample.stale).1 = Ok tt ∧
  files (create_config_file Sample.linux (Sample.client Sample.odd_config)
           Sample.stale).2 !! "/opt/pyvpnc/vpnc/tempvpnc.conf" =
    Some ("IPSec gateway " +:+ ("gw" +:+ NL +:+ NL) +:+ NL +:+
          "IPSec ID " +:+ "100%(x)s" +:+ NL +:+
          "IPSec secret " +:+ NL +:+ NL +:+
          "IKE Authmode " +:+ "psk" +:+ NL +:+
          "Xauth username " +:+ "u" +:+ NL +:+
          "Xauth password " +:+ "p" +:+ NL) ∧
  ∀ path, path ≠ "/opt/pyvpnc/vpnc/tempvpnc.conf" →
          files (create_config_file Sample.linux
                   (Sample.client Sample.odd_config) Sample.stale).2 !! path
            = files Sample.stale !! path.
Proof.
  exact (create_config_file_content Sample.linux
           (Sample.client Sample.odd_config) Sample.stale
           ("gw" +:+ NL +:+ NL) "100%(x)s" NL "psk" "u" "p"
           eq_refl eq_refl eq_refl eq_refl eq_refl eq_refl eq_refl).
Defined.

Lemma create_config_file_line_count_witness :
  ∃ content,
    files (create_config_file Sample.linux (Sample.client Sample.odd_config)
             Sample.stale).2 !! "/opt/pyvpnc/vpnc/tempvpnc.conf"
      = Some content ∧
    length (lines content) = 9%nat.
Proof.
  exact (create_config_file_line_count Sample.linux
           (Sample.client Sample.odd_config) Sample.stale
           ("gw" +:+ NL +:+ NL) "100%(x)s" NL "psk" "u" "p"
           eq_refl eq_refl eq_refl eq_refl eq_refl eq_refl eq_refl).
Defined.

Lemma full_config_lf_free : complete_lf_free Sample.full_config.
Proof.
  intros k Hk. unfold required_keys in Hk.
  repeat (apply elem_of_cons in Hk as [-> | Hk];
          [eexists; split; reflexivity |]).
  by apply elem_of_nil in Hk.
Defined.

Lemma commented_config_lf_free : complete_lf_free Sample.commented_config.
Proof.
  intros k Hk. unfold required_keys in Hk.
  repeat (apply elem_of_cons in Hk as [-> | Hk];
          [eexists; split; reflexivity |]).
  by apply elem_of_nil in Hk.
Defined.

Lemma secret_is_required : "IPSec_secret" ∈ required_keys.
Proof.
  unfold required_keys. apply elem_of_cons. right.
  apply elem_of_cons. right. apply elem_of_cons. by left.
Defined.

Lemma rendering_injective_witness :
  Sample.full_config !! "IPSec_secret" =
    Sample.commented_config !! "IPSec_secret".
Proof.
  exact (rendering_injective Sample.linux
           (Sample.client Sample.full_config)
           (Sample.client Sample.commented_config)
           Sample.start Sample.stale
           full_config_lf_free commented_config_lf_free
           eq_refl eq_refl eq_refl "IPSec_secret" secret_is_required).
Defined.

Lemma VPNC_init_absolute_file_witness :
  ∃ self,
    VPNC_init Sample.linux None "/tmp/my.conf" None = Ok self ∧
    temp_config_path self = "/tmp/my.conf" ∧
    config_path self = "/tmp/my.conf".
Proof.
  eexists. split; [reflexivity |].
  exact (VPNC_init_absolute_file Sample.linux None "/tmp/my.conf" None _
           (or_introl eq_refl) eq_refl eq_refl).
Defined.

Lemma connect_without_config_witness :
  connect Sample.linux (Sample.client ∅) Sample.start =
    (Raise (KeyError "IPSec_gateway"),
     {| files := {[ "/opt/pyvpnc/vpnc/tempvpnc.conf" := "" ]};
        trace := [Opened "/opt/pyvpnc/vpnc/tempvpnc.conf"] |}).
Proof.
  exact (connect_without_config Sample.linux None default_config_file None
           (Sample.client ∅) Sample.start (or_introl eq_refl)
           eq_refl eq_refl).
Defined.

Lemma ProcessException_str_nonnegative_witness :
  ProcessException_str Sample.linux
    (mkProcessException 0 ["vpnc"; "tempvpnc"] "" "")
    = "Command '['vpnc', 'tempvpnc']' returned non-zero exit status 0.".
Proof.
  exact (ProcessException_str_nonnegative Sample.linux
           (mkProcessException 0 ["vpnc"; "tempvpnc"] "" "")
           ltac:(simpl; lia)).
Defined.

Lemma vpn_incomplete_config_witness :
  ∃ k, first_missing Sample.no_id = Some k ∧
       with_stmt (vpn Sample.linux (Sample.client Sample.no_id))
         (process_call Sample.linux ["ping"; "-c"; "1"; "10.0.0.1"] ;; ret tt)
         Sample.start =
         (Raise (KeyError k),
          {| files := {[ "/opt/pyvpnc/vpnc/tempvpnc.conf" := "" ]};
             trace := [Opened "/opt/pyvpnc/vpnc/tempvpnc.conf"] |}).
Proof.
  exact (vpn_incomplete_config Sample.linux (Sample.client Sample.no_id)
           (process_call Sample.linux ["ping"; "-c"; "1"; "10.0.0.1"] ;; ret tt)
           Sample.start eq_refl no_id_lacks_a_key).
Defined.
